(** * go-dns: the query handler of [main.go], its allow-list and its record cache

    A shallow embedding of [main.go].  The program keeps two package-level
    variables that matter here: [subdomains] (a slice of names, guarded by a
    read/write mutex) and [rrCache] (a [sync.Map] from record text to parsed
    record).  Both are threaded explicitly through every operation; a Go
    panic is an explicit outcome.  The embedding is sequential: one call runs
    to completion before the next starts. *)

From stdpp Require Import gmap strings list fin_maps.
From Stdlib Require Import ZArith Ascii.

Open Scope string_scope.

(** ** Go run-time outcomes *)

Module Go.

(** The two run-time panics the code of [main.go] can raise. *)
Inductive panic : Type :=
| IndexOutOfRange (index len : nat)   (* [s[i]] with [i >= len(s)] *)
| NilInterfaceConversion.             (* [x.(T)] on a nil interface value *)

Inductive outcome (A : Type) : Type :=
| Done (a : A)
| Panicked (p : panic).
Arguments Done {A} a.
Arguments Panicked {A} p.

Definition bind {A B : Type} (m : outcome A) (k : A -> outcome B) : outcome B :=
  match m with
  | Done a => k a
  | Panicked p => Panicked p
  end.

(** [s[i]] on a slice: bounds-checked, panics when out of range. *)
Definition index {A : Type} (s : list A) (i : nat) : outcome A :=
  match nth_error s i with
  | Some a => Done a
  | None => Panicked (IndexOutOfRange i (List.length s))
  end.

(** [x.(T)] where [T] is an interface type every stored dynamic type
    implements: the single-result form panics exactly on the nil
    interface value.  An interface value is an [option]: [None] is nil. *)
Definition type_assert {A : Type} (x : option A) : outcome (option A) :=
  match x with
  | Some a => Done (Some a)
  | None => Panicked NilInterfaceConversion
  end.

(** [slices.Contains(s, v)]: a left-to-right scan with [==]. *)
Fixpoint slices_Contains (s : list string) (v : string) : bool :=
  match s with
  | [] => false
  | x :: rest => if String.eqb v x then true else slices_Contains rest v
  end.

End Go.

Notation "'let*' x ':=' m 'in' k" := (Go.bind m (fun x => k))
  (at level 10, x pattern, m at level 100, k at level 200, only parsing).

(** ** The part of [github.com/miekg/dns] the handler touches *)

Module Dns.

Definition TypeA : Z := 1.
Definition TypeNS : Z := 2.
Definition ClassINET : Z := 1.
Definition OpcodeQuery : Z := 0.
Definition RcodeSuccess : Z := 0.

Record Question : Type := mkQuestion {
  Name : string;
  Qtype : Z;
  Qclass : Z
}.

Record RR_Header : Type := mkHeader {
  HName : string;
  Rrtype : Z;
  Class : Z;
  Ttl : Z
}.

(** The record kinds the fixed templates of [main.go] produce. [A] holds a
    four-byte address, [NS] the name of the name server. *)
Inductive RData : Type :=
| A (hdr : RR_Header) (addr : Z * Z * Z * Z)
| NS (hdr : RR_Header) (ns : string).

(** A record as the program holds it: a pointer to a record built by the
    parser.  [ptr] is the identity of the allocation, [data] what it holds;
    a record is never written after it is built. *)
Record Rec : Type := mkRec {
  ptr : nat;
  data : RData
}.

(** A value of interface type [dns.RR]: nil or a record. *)
Abbreviation RR := (option Rec).

Record Msg : Type := mkMsg {
  Id : Z;
  Response : bool;
  Opcode : Z;
  RecursionDesired : bool;
  CheckingDisabled : bool;
  Rcode : Z;
  Questions : list Question;
  Answer : list RR;
  Extra : list RR
}.

(** [new(dns.Msg)]: the zero message. *)
Definition new_Msg : Msg :=
  mkMsg 0 false 0 false false 0 [] [] [].

(** [m.SetReply(request)] on a fresh message: copies the id and opcode,
    sets the reply flag, and echoes the FIRST question only, when there is
    one. *)
Definition SetReply (m request : Msg) : Msg :=
  let isq := Z.eqb (Opcode request) OpcodeQuery in
  mkMsg (Id request) true (Opcode request)
        (if isq then RecursionDesired request else RecursionDesired m)
        (if isq then CheckingDisabled request else CheckingDisabled m)
        RcodeSuccess
        (match Questions request with
         | q :: _ => [q]
         | [] => Questions m
         end)
        (Answer m) (Extra m).

Definition set_Answer (m : Msg) (a : list RR) : Msg :=
  mkMsg (Id m) (Response m) (Opcode m) (RecursionDesired m)
        (CheckingDisabled m) (Rcode m) (Questions m) a (Extra m).

Definition set_Extra (m : Msg) (e : list RR) : Msg :=
  mkMsg (Id m) (Response m) (Opcode m) (RecursionDesired m)
        (CheckingDisabled m) (Rcode m) (Questions m) (Answer m) e.

(** The fixed address every record of the program carries. *)
Definition fixedIP : Z * Z * Z * Z := (192, 168, 0, 11)%Z.

(** The A record [name 5 IN A 192.168.0.11]. *)
Definition A_record (name : string) : RData :=
  A (mkHeader name TypeA ClassINET 5) fixedIP.

(** The NS record [zone 5 IN NS ns]. *)
Definition NS_record (zone ns : string) : RData :=
  NS (mkHeader zone TypeNS ClassINET 5) ns.

End Dns.

(** ** The program *)

Section Server.

(** [dns.NewRR] is the library's parser, a parameter of the development.
    It returns the content of the record it built together with the error
    it reports (which [newRR] throws away).  The record is nil, [None],
    when the text does not parse (with an error) and when the text holds no
    record (without one). *)
Variable NewRR : string -> option Dns.RData * option string.

(** A text is malformed when the parser reports an error for it. *)
Definition malformed (s : string) : Prop := is_Some (snd (NewRR s)).

(** The package-level variables.  [parsed] is a ghost log of the texts
    handed to [dns.NewRR], in call order (newest first); a record built by
    the n-th call of the parser lives at pointer [n]. *)
Record State : Type := mkState {
  subdomains : list string;
  rrCache : gmap string Dns.RR;
  parsed : list string
}.

Definition defaultSubdomains : list string :=
  [ "t.example.com.";
    "ns1.t.example.com.";
    "www.t.example.com.";
    "test001.t.example.com." ].

(** The state the package-level initialisers leave. *)
Definition init : State := mkState defaultSubdomains ∅ [].

(** [resetSubdomains]: [subdomains = defaultSubdomains] under the write
    lock. *)
Definition resetSubdomains (st : State) : State :=
  mkState defaultSubdomains (rrCache st) (parsed st).

(** The membership test [handle] makes:
    [slices.Contains(subdomains, name)]. *)
Definition contains (st : State) (name : string) : bool :=
  Go.slices_Contains (subdomains st) name.

(** One call of [dns.NewRR] in state [st]: the record it builds, freshly
    allocated, and the state with the call logged. *)
Definition call_NewRR (s : string) (st : State) : Dns.RR * State :=
  (Dns.mkRec (List.length (parsed st)) <$> fst (NewRR s),
   mkState (subdomains st) (rrCache st) (s :: parsed st)).

(** [rrCache.Store(s, r)]. *)
Definition cache_Store (s : string) (r : Dns.RR) (st : State) : State :=
  mkState (subdomains st) (<[s := r]> (rrCache st)) (parsed st).

(** [newRR]:
<<
    if rr, ok := rrCache.Load(s); ok { return rr.(dns.RR) }
    r, _ := dns.NewRR(s)
    rrCache.Store(s, r)
    return r
>>
    [rrCache.Load] reports [ok] for every stored key, also one stored with
    a nil value: [Some None] below. *)
Definition newRR (s : string) (st : State) : Go.outcome (Dns.RR * State) :=
  match rrCache st !! s with
  | Some rr =>
      let* r := Go.type_assert rr in
      Go.Done (r, st)
  | None =>
      let '(r, st1) := call_NewRR s st in
      Go.Done (r, cache_Store s r st1)
  end.

Definition parentZone : string := "t.example.com.".
Definition nsText : string := "t.example.com. 5 IN NS ns1.t.example.com.".
Definition glueText : string := "ns1.t.example.com. 5 IN A 192.168.0.11".
Definition aText (name : string) : string := name ++ " 5 IN A 192.168.0.11".

(** [handle].  The response writer is the list of messages written to it,
    so a dropped query returns the empty list. *)
Definition handle (r : Dns.Msg) (st : State)
  : Go.outcome (list Dns.Msg * State) :=
  let m := Dns.SetReply Dns.new_Msg r in
  let* q0 := Go.index (Dns.Questions r) 0 in
  if Z.eqb (Dns.Qtype q0) Dns.TypeNS && String.eqb (Dns.Name q0) parentZone
  then
    let* (ans, st1) := newRR nsText st in
    let m1 := Dns.set_Answer m [ans] in
    let* (ext, st2) := newRR glueText st1 in
    let m2 := Dns.set_Extra m1 [ext] in
    Go.Done ([m2], st2)
  else
    let* q1 := Go.index (Dns.Questions r) 0 in
    if Go.slices_Contains (subdomains st) (Dns.Name q1) then
      let* q2 := Go.index (Dns.Questions r) 0 in
      let* (ans, st1) := newRR (aText (Dns.Name q2)) st in
      let m1 := Dns.set_Answer m [ans] in
      Go.Done ([m1], st1)
    else
      Go.Done ([], st).

(** ** Runs of the program *)

(** One operation of the program that returns: a reset, a call of the
    cache, or a handled query. *)
Inductive step : State -> State -> Prop :=
| step_reset st :
    step st (resetSubdomains st)
| step_newRR st s r st' :
    newRR s st = Go.Done (r, st') -> step st st'
| step_handle st q out st' :
    handle q st = Go.Done (out, st') -> step st st'.

(** The states the program can be in. *)
Definition reachable (st : State) : Prop := rtc step init st.

(** Every cache entry holds what the parser builds from its key. *)
Definition cache_ok (st : State) : Prop :=
  forall s rr, rrCache st !! s = Some rr -> Dns.data <$> rr = fst (NewRR s).

(** The state [st] with another allow-list. *)
Definition with_subdomains (l : list string) (st : State) : State :=
  mkState l (rrCache st) (parsed st).

(** What a caller can see of a handled query: the record lists of the
    messages written, and the state left behind. *)
Definition records_of (m : Dns.Msg) : list Dns.RR * list Dns.RR :=
  (Dns.Answer m, Dns.Extra m).

Definition observe (o : Go.outcome (list Dns.Msg * State))
  : Go.outcome (list (list Dns.RR * list Dns.RR) * State) :=
  let* (out, st') := o in Go.Done (map records_of out, st').

(** The messages written, without the state. *)
Definition written (o : Go.outcome (list Dns.Msg * State))
  : Go.outcome (list Dns.Msg) :=
  let* (out, _) := o in Go.Done out.

(** The delegation case of [handle]. *)
Definition delegation (q : Dns.Question) : Prop :=
  Dns.Qtype q = Dns.TypeNS /\ Dns.Name q = parentZone.

(** The condition [handle] tests for it. *)
Definition deleg_test (q : Dns.Question) : bool :=
  Z.eqb (Dns.Qtype q) Dns.TypeNS && String.eqb (Dns.Name q) parentZone.

(** Idempotence of the cache at text [T] from state [st], for every text:
    two calls in sequence both return, with the same content. *)
Definition twice_same_content (T : string) (st : State) : Prop :=
  exists r1 st1 r2 st2,
    newRR T st = Go.Done (r1, st1) /\
    newRR T st1 = Go.Done (r2, st2) /\
    Dns.data <$> r1 = Dns.data <$> r2.

End Server.

(** ** Variants of a name *)

Definition lower_ascii (c : ascii) : ascii :=
  let n := nat_of_ascii c in
  if (65 <=? n)%nat && (n <=? 90)%nat then ascii_of_nat (n + 32) else c.

Fixpoint lower (s : string) : string :=
  match s with
  | EmptyString => EmptyString
  | String c rest => String (lower_ascii c) (lower rest)
  end.

(** [a] occurs inside [b]. *)
Definition substring_of (a b : string) : Prop :=
  exists pre post, b = pre ++ a ++ post.

(** [q] is another text than [allowed], but contains it, is contained in
    it, or differs from it in letter case only. *)
Definition variant_of (q allowed : string) : Prop :=
  q <> allowed /\
  (substring_of allowed q \/ substring_of q allowed \/ lower q = lower allowed).

(** ** A parser for the one-line record form

    [main.go] only ever builds texts of the shape [owner TTL IN A a.b.c.d]
    and [owner TTL IN NS target].  [ZoneLine.NewRR] reads exactly that shape
    and, like the library, returns a nil record with an error on anything
    else and a nil record without an error on the empty text.  It is the
    parser the concrete runs below are made with; the general theorems hold
    for every parser. *)

Module ZoneLine.

(** The fields of a line, separated by single spaces. *)
Fixpoint fields_from (cur : string) (s : string) : list string :=
  match s with
  | EmptyString => [cur]
  | String c rest =>
      if Ascii.eqb c " "%char
      then cur :: fields_from "" rest
      else fields_from (cur ++ String c "") rest
  end.

Definition fields (s : string) : list string := fields_from "" s.

(** The labels of a dotted text. *)
Fixpoint labels_from (cur : string) (s : string) : list string :=
  match s with
  | EmptyString => [cur]
  | String c rest =>
      if Ascii.eqb c "."%char
      then cur :: labels_from "" rest
      else labels_from (cur ++ String c "") rest
  end.

Definition digit (c : ascii) : option Z :=
  let n := Z.of_nat (nat_of_ascii c) in
  if (48 <=? n)%Z && (n <=? 57)%Z then Some (n - 48)%Z else None.

Fixpoint decimal_from (acc : Z) (s : string) : option Z :=
  match s with
  | EmptyString => Some acc
  | String c rest =>
      match digit c with
      | Some d => decimal_from (10 * acc + d)%Z rest
      | None => None
      end
  end.

Definition decimal (s : string) : option Z :=
  match s with
  | EmptyString => None
  | _ => decimal_from 0 s
  end.

Definition octet (s : string) : option Z :=
  match decimal s with
  | Some n => if (n <=? 255)%Z then Some n else None
  | None => None
  end.

Definition address (s : string) : option (Z * Z * Z * Z) :=
  match labels_from "" s with
  | [a; b; c; d] =>
      match octet a, octet b, octet c, octet d with
      | Some a, Some b, Some c, Some d => Some (a, b, c, d)
      | _, _, _, _ => None
      end
  | _ => None
  end.

Definition NewRR (s : string) : option Dns.RData * option string :=
  match s with
  | EmptyString => (None, None)
  | _ =>
      match fields s with
      | [owner; ttl; cls; typ; rdata] =>
          match decimal ttl with
          | Some t =>
              if negb (String.eqb owner "") && String.eqb cls "IN" then
                if String.eqb typ "A" then
                  match address rdata with
                  | Some ip =>
                      (Some (Dns.A (Dns.mkHeader owner Dns.TypeA Dns.ClassINET t) ip),
                       None)
                  | None => (None, Some "dns: bad A A")
                  end
                else if String.eqb typ "NS" && negb (String.eqb rdata "") then
                  (Some (Dns.NS (Dns.mkHeader owner Dns.TypeNS Dns.ClassINET t) rdata),
                   None)
                else (None, Some "dns: unknown RR type")
              else (None, Some "dns: bad owner or class")
          | None => (None, Some "dns: not a TTL")
          end
      | _ => (None, Some "dns: bad record")
      end
  end.

End ZoneLine.


(** ** Concrete queries *)

(** A one-question query as a resolver sends it (id 4660, recursion
    desired, class IN). *)
Definition query (name : string) (qtype : Z) : Dns.Msg :=
  Dns.mkMsg 4660 false Dns.OpcodeQuery true false 0
            [Dns.mkQuestion name qtype Dns.ClassINET] [] [].

(** The same query followed by further questions. *)
Definition query_more (name : string) (qtype : Z) (more : list Dns.Question)
  : Dns.Msg :=
  Dns.mkMsg 7 false Dns.OpcodeQuery false false 0
            (Dns.mkQuestion name qtype Dns.ClassINET :: more) [] [].

(** A text the parser rejects: the address is not one. *)
Definition badText : string := "t.example.com. 5 IN A not-an-address".

(** ** The server at work *)

(** The texts [handle] hands to the cache when the allow-list is [l]: the
    two delegation records and one A record per allowed name. *)
Definition served_texts (l : list string) : list string :=
  nsText :: glueText :: map aText l.

Section Serving.

Variable NewRR : string -> option Dns.RData * option string.

(** What [main] sets going: [resetSubdomains], and [handle] for each query
    the server decodes.  [newRR] is called by [handle] only. *)
Inductive serve_step : State -> State -> Prop :=
| serve_reset st :
    serve_step st (resetSubdomains st)
| serve_handle st q out st' :
    handle NewRR q st = Go.Done (out, st') -> serve_step st st'.

(** The states of a running server. *)
Definition serving (st : State) : Prop := rtc serve_step init st.


(** No record of a written message is nil. *)
Definition no_nil_record (m : Dns.Msg) : Prop :=
  Forall is_Some (Dns.Answer m) /\ Forall is_Some (Dns.Extra m).

End Serving.

(** * Properties *)

Section Facts.

Variable NewRR : string -> option Dns.RData * option string.


(** *** Membership *)

Lemma slices_Contains_elem (l : list string) (v : string) :
  Go.slices_Contains l v = true <-> v ∈ l.
Proof.
  induction l as [|x l IH]; simpl.
  - split; [discriminate | intros H; inversion H].
  - destruct (String.eqb v x) eqn:E.
    + apply String.eqb_eq in E. subst. split; [intros _; left | done].
    + apply String.eqb_neq in E. rewrite IH. split.
      * intros H. by right.
      * intros H. inversion H; subst; [congruence | done].
Qed.

Lemma slices_Contains_not_elem (l : list string) (v : string) :
  Go.slices_Contains l v = false <-> v ∉ l.
Proof.
  rewrite <- slices_Contains_elem.
  destruct (Go.slices_Contains l v); split; congruence.
Qed.

(** *** The cache *)

Lemma newRR_hit (s : string) (st : State) (rec : Dns.Rec) :
  rrCache st !! s = Some (Some rec) ->
  newRR NewRR s st = Go.Done (Some rec, st).
Proof. intros H. unfold newRR. by rewrite H. Qed.

Lemma newRR_hit_nil (s : string) (st : State) :
  rrCache st !! s = Some None ->
  newRR NewRR s st = Go.Panicked Go.NilInterfaceConversion.
Proof. intros H. unfold newRR. by rewrite H. Qed.

Lemma newRR_miss (s : string) (st : State) :
  rrCache st !! s = None ->
  newRR NewRR s st =
    Go.Done (Dns.mkRec (List.length (parsed st)) <$> fst (NewRR s),
             mkState (subdomains st)
                     (<[s := Dns.mkRec (List.length (parsed st)) <$> fst (NewRR s)]>
                        (rrCache st))
                     (s :: parsed st)).
Proof. intros H. unfold newRR. by rewrite H. Qed.

(** A call that returns leaves its result stored under its key. *)
Lemma newRR_stores (s : string) (st st' : State) (r : Dns.RR) :
  newRR NewRR s st = Go.Done (r, st') -> rrCache st' !! s = Some r.
Proof.
  destruct (rrCache st !! s) as [[rec|]|] eqn:E.
  - rewrite (newRR_hit _ _ _ E). intros [= <- <-]. done.
  - rewrite (newRR_hit_nil _ _ E). discriminate.
  - rewrite (newRR_miss _ _ E). intros [= <- <-]. simpl.
    apply lookup_insert_eq.
Qed.

(** The cache only grows: an entry, once stored, stays as it is. *)
Lemma newRR_keeps (s : string) (st st' : State) (r : Dns.RR) :
  newRR NewRR s st = Go.Done (r, st') ->
  forall k v, rrCache st !! k = Some v -> rrCache st' !! k = Some v.
Proof.
  destruct (rrCache st !! s) as [[rec|]|] eqn:E.
  - rewrite (newRR_hit _ _ _ E). intros [= <- <-]. done.
  - rewrite (newRR_hit_nil _ _ E). discriminate.
  - rewrite (newRR_miss _ _ E). intros [= <- <-] k v Hk. simpl.
    rewrite lookup_insert_ne; [done | congruence].
Qed.

Lemma newRR_subdomains (s : string) (st st' : State) (r : Dns.RR) :
  newRR NewRR s st = Go.Done (r, st') -> subdomains st' = subdomains st.
Proof.
  destruct (rrCache st !! s) as [[rec|]|] eqn:E.
  - rewrite (newRR_hit _ _ _ E). by intros [= <- <-].
  - rewrite (newRR_hit_nil _ _ E). discriminate.
  - rewrite (newRR_miss _ _ E). by intros [= <- <-].
Qed.

Lemma newRR_cache_ok (s : string) (st st' : State) (r : Dns.RR) :
  cache_ok NewRR st -> newRR NewRR s st = Go.Done (r, st') -> cache_ok NewRR st'.
Proof.
  intros Hok.
  destruct (rrCache st !! s) as [[rec|]|] eqn:E.
  - rewrite (newRR_hit _ _ _ E). by intros [= <- <-].
  - rewrite (newRR_hit_nil _ _ E). discriminate.
  - rewrite (newRR_miss _ _ E). intros [= <- <-] k v. simpl.
    rewrite lookup_insert. case_decide as Hk.
    + subst k. intros [= <-]. destruct (fst (NewRR s)); done.
    + apply Hok.
Qed.

(** The only panic of the cache is the failed type assertion. *)
Lemma newRR_no_index_panic (s : string) (st : State) (i n : nat) :
  newRR NewRR s st = Go.Panicked (Go.IndexOutOfRange i n) -> False.
Proof.
  unfold newRR. destruct (rrCache st !! s) as [[rec|]|]; discriminate.
Qed.

(** A text the parser builds nothing from: the first call returns nil and
    stores it; the next call finds the nil entry and fails the type
    assertion. *)
Lemma newRR_nil_then_panics (s : string) (st : State) :
  rrCache st !! s = None -> fst (NewRR s) = None ->
  exists st1,
    newRR NewRR s st = Go.Done (None, st1)
    /\ rrCache st1 !! s = Some None
    /\ parsed st1 = s :: parsed st
    /\ newRR NewRR s st1 = Go.Panicked Go.NilInterfaceConversion.
Proof.
  intros Hmiss Hnil. rewrite (newRR_miss _ _ Hmiss), Hnil. simpl.
  eexists. split; [reflexivity |].
  assert (H : forall m : gmap string Dns.RR, <[s := None]> m !! s = Some None)
    by (intros m; apply lookup_insert_eq).
  split; [apply H | split; [reflexivity |]].
  apply newRR_hit_nil. apply H.
Qed.

(** In a consistent cache, a text the parser builds a record from is
    served: from the cache when it is there, by the parser when not. *)
Lemma newRR_builds (s : string) (d : Dns.RData) (st : State) :
  cache_ok NewRR st -> fst (NewRR s) = Some d ->
  exists rec st', newRR NewRR s st = Go.Done (Some rec, st') /\ Dns.data rec = d.
Proof.
  intros Hok Hd.
  destruct (rrCache st !! s) as [[rec|]|] eqn:E.
  - exists rec, st. split; [by apply newRR_hit |].
    specialize (Hok _ _ E). rewrite Hd in Hok. simpl in Hok. congruence.
  - specialize (Hok _ _ E). rewrite Hd in Hok. discriminate.
  - rewrite (newRR_miss _ _ E), Hd. simpl. eauto.
Qed.

(** *** The handler, case by case *)

Lemma deleg_test_true (q : Dns.Question) :
  deleg_test q = true <-> delegation q.
Proof.
  unfold deleg_test, delegation.
  rewrite andb_true_iff, Z.eqb_eq, String.eqb_eq. done.
Qed.

Lemma deleg_test_false (q : Dns.Question) :
  deleg_test q = false <-> ~ delegation q.
Proof.
  rewrite <- deleg_test_true. destruct (deleg_test q); split; congruence.
Qed.

Lemma handle_no_question (r : Dns.Msg) (st : State) :
  Dns.Questions r = [] ->
  handle NewRR r st = Go.Panicked (Go.IndexOutOfRange 0 0).
Proof. intros H. unfold handle. rewrite H. reflexivity. Qed.

Lemma handle_delegation_eq (r : Dns.Msg) (st : State) q0 rest :
  Dns.Questions r = q0 :: rest -> deleg_test q0 = true ->
  handle NewRR r st =
    Go.bind (newRR NewRR nsText st) (fun p1 =>
      Go.bind (newRR NewRR glueText (snd p1)) (fun p2 =>
        Go.Done
          ([Dns.set_Extra
              (Dns.set_Answer (Dns.SetReply Dns.new_Msg r) [fst p1])
              [fst p2]],
           snd p2))).
Proof.
  intros H Ht. unfold handle. rewrite H. simpl.
  unfold deleg_test in Ht. rewrite Ht.
  destruct (newRR NewRR nsText st) as [[a st1]|]; simpl; [|done].
  destruct (newRR NewRR glueText st1) as [[e st2]|]; simpl; done.
Qed.

Lemma handle_lookup_eq (r : Dns.Msg) (st : State) q0 rest :
  Dns.Questions r = q0 :: rest -> deleg_test q0 = false ->
  contains st (Dns.Name q0) = true ->
  handle NewRR r st =
    Go.bind (newRR NewRR (aText (Dns.Name q0)) st) (fun p1 =>
      Go.Done
        ([Dns.set_Answer (Dns.SetReply Dns.new_Msg r) [fst p1]], snd p1)).
Proof.
  intros H Ht Hc. unfold handle. rewrite H. simpl.
  unfold deleg_test in Ht. rewrite Ht.
  unfold contains in Hc. rewrite Hc.
  destruct (newRR NewRR (aText (Dns.Name q0)) st) as [[a st1]|]; simpl; done.
Qed.

Lemma handle_drop_eq (r : Dns.Msg) (st : State) q0 rest :
  Dns.Questions r = q0 :: rest -> deleg_test q0 = false ->
  contains st (Dns.Name q0) = false ->
  handle NewRR r st = Go.Done ([], st).
Proof.
  intros H Ht Hc. unfold handle. rewrite H. simpl.
  unfold deleg_test in Ht. rewrite Ht.
  unfold contains in Hc. by rewrite Hc.
Qed.

(** An allowed name outside the delegation case is answered with the one
    record the cache returns for [name 5 IN A 192.168.0.11]. *)
Lemma handle_lookup_answer (r : Dns.Msg) (st : State) q0 rest d :
  Dns.Questions r = q0 :: rest -> ~ delegation q0 ->
  Dns.Name q0 ∈ subdomains st ->
  cache_ok NewRR st ->
  fst (NewRR (aText (Dns.Name q0))) = Some d ->
  exists rec st',
    handle NewRR r st =
      Go.Done ([Dns.set_Answer (Dns.SetReply Dns.new_Msg r) [Some rec]], st')
    /\ Dns.data rec = d.
Proof.
  intros H Hn Hin Hok Hd.
  apply deleg_test_false in Hn. apply slices_Contains_elem in Hin.
  rewrite (handle_lookup_eq _ _ _ _ H Hn Hin).
  destruct (newRR_builds _ _ _ Hok Hd) as (rec & st' & -> & Hrec).
  exists rec, st'. done.
Qed.

(** *** What every operation preserves *)

Lemma handle_inv (r : Dns.Msg) (st st' : State) out :
  handle NewRR r st = Go.Done (out, st') ->
  subdomains st' = subdomains st
  /\ (cache_ok NewRR st -> cache_ok NewRR st')
  /\ (forall k v, rrCache st !! k = Some v -> rrCache st' !! k = Some v).
Proof.
  destruct (Dns.Questions r) as [|q0 rest] eqn:H.
  { rewrite (handle_no_question _ _ H). discriminate. }
  destruct (deleg_test q0) eqn:Ht.
  - rewrite (handle_delegation_eq _ _ _ _ H Ht).
    destruct (newRR NewRR nsText st) as [[a st1]|] eqn:E1; simpl; [|discriminate].
    destruct (newRR NewRR glueText st1) as [[e st2]|] eqn:E2; simpl; [|discriminate].
    intros [= <- <-]. split; [|split].
    + rewrite (newRR_subdomains _ _ _ _ E2). by apply newRR_subdomains in E1.
    + eauto using newRR_cache_ok.
    + eauto using newRR_keeps.
  - destruct (contains st (Dns.Name q0)) eqn:Hc.
    + rewrite (handle_lookup_eq _ _ _ _ H Ht Hc).
      destruct (newRR NewRR (aText (Dns.Name q0)) st) as [[a st1]|] eqn:E1;
        simpl; [|discriminate].
      intros [= <- <-]. split; [|split].
      * by apply newRR_subdomains in E1.
      * eauto using newRR_cache_ok.
      * eauto using newRR_keeps.
    + rewrite (handle_drop_eq _ _ _ _ H Ht Hc). intros [= <- <-]. done.
Qed.

Lemma step_inv (st st' : State) :
  step NewRR st st' ->
  (subdomains st' = subdomains st \/ subdomains st' = defaultSubdomains)
  /\ (cache_ok NewRR st -> cache_ok NewRR st')
  /\ (forall k v, rrCache st !! k = Some v -> rrCache st' !! k = Some v).
Proof.
  destruct 1 as [st | st s r st' H | st q out st' H].
  - split; [by right | done].
  - split; [left; eauto using newRR_subdomains |].
    split; eauto using newRR_cache_ok, newRR_keeps.
  - destruct (handle_inv _ _ _ _ H) as (? & ? & ?). split; [by left | done].
Qed.

Lemma steps_keep (st st' : State) :
  rtc (step NewRR) st st' ->
  forall k v, rrCache st !! k = Some v -> rrCache st' !! k = Some v.
Proof.
  induction 1 as [|a b c Hab _ IH]; [done |].
  intros k v Hk. apply IH. by apply (step_inv _ _ Hab).
Qed.

Lemma cache_ok_init : cache_ok NewRR init.
Proof. intros s rr. simpl. by rewrite lookup_empty. Qed.

Lemma steps_cache_ok (st st' : State) :
  rtc (step NewRR) st st' -> cache_ok NewRR st -> cache_ok NewRR st'.
Proof.
  induction 1 as [|a b c Hab _ IH]; [done |].
  intros Hok. apply IH. by apply (step_inv _ _ Hab).
Qed.

Lemma steps_default (st st' : State) :
  rtc (step NewRR) st st' ->
  subdomains st = defaultSubdomains -> subdomains st' = defaultSubdomains.
Proof.
  induction 1 as [|a b c Hab _ IH]; [done |].
  intros Hd. apply IH. destruct (step_inv _ _ Hab) as ([->| ->] & _); done.
Qed.

Lemma reachable_inv (st : State) :
  reachable NewRR st ->
  subdomains st = defaultSubdomains /\ cache_ok NewRR st.
Proof.
  intros H. split.
  - by apply (steps_default _ _ H).
  - apply (steps_cache_ok _ _ H), cache_ok_init.
Qed.

End Facts.

(** * The claims *)

Section Claims.

Variable NewRR : string -> option Dns.RData * option string.

(** The allow-list plays no part in what the cache returns. *)
Lemma newRR_with_subdomains (l : list string) (s : string) (st : State) :
  newRR NewRR s (with_subdomains l st) =
    Go.bind (newRR NewRR s st) (fun p =>
      Go.Done (fst p, with_subdomains l (snd p))).
Proof.
  unfold newRR, with_subdomains. simpl.
  destruct (rrCache st !! s) as [[rec|]|]; reflexivity.
Qed.

(** C1 (allow-list gating).  For a query whose first question's name is
    not in the allow-list and is not the pair (name [t.example.com.], type
    NS), [handle] writes no message and leaves the state as it is.  For a
    query whose first question's name is in the allow-list and has type A,
    [handle] writes one reply (reply flag set, question echoed) whose
    Answer is exactly one record, the A record of that name with address
    192.168.0.11 and no Extra record; this where the cache is consistent
    with the parser and the parser reads [name 5 IN A 192.168.0.11] as that
    record. *)
Theorem handle_allow_list_gating (st : State) (r : Dns.Msg)
    (q0 : Dns.Question) (rest : list Dns.Question) :
  Dns.Questions r = q0 :: rest ->
  (Dns.Name q0 ∉ subdomains st ->
   ~ (Dns.Name q0 = "t.example.com." /\ Dns.Qtype q0 = Dns.TypeNS) ->
   handle NewRR r st = Go.Done ([], st))
  /\
  (Dns.Name q0 ∈ subdomains st ->
   Dns.Qtype q0 = Dns.TypeA ->
   cache_ok NewRR st ->
   fst (NewRR (aText (Dns.Name q0))) = Some (Dns.A_record (Dns.Name q0)) ->
   exists m rec st',
     handle NewRR r st = Go.Done ([m], st')
     /\ Dns.Answer m = [Some rec]
     /\ Dns.data rec = Dns.A_record (Dns.Name q0)
     /\ Dns.Extra m = []
     /\ Dns.Response m = true
     /\ Dns.Questions m = [q0]).
Proof.
  intros Hq. split.
  - intros Hnot Hnd.
    apply (handle_drop_eq NewRR r st q0 rest Hq).
    + apply deleg_test_false. unfold delegation, parentZone. tauto.
    + by apply slices_Contains_not_elem.
  - intros Hin Hty Hok Hparse.
    assert (Hnd : ~ delegation q0).
    { unfold delegation. rewrite Hty. intros [H _]. discriminate H. }
    destruct (handle_lookup_answer NewRR r st q0 rest _ Hq Hnd Hin Hok Hparse)
      as (rec & st' & Hh & Hrec).
    eexists _, rec, st'. split; [exact Hh |].
    simpl. rewrite Hq. done.
Qed.

(** C2 (delegation response).  For a query whose first question has type
    NS and name [t.example.com.], [handle] writes one reply whose Answer is
    exactly the NS record [t.example.com. 5 IN NS ns1.t.example.com.] and
    whose Extra is exactly the A record
    [ns1.t.example.com. 5 IN A 192.168.0.11]; the reply is the same
    whatever the allow-list holds.  This where the cache is consistent with
    the parser and the parser reads the two texts as those records. *)
Theorem handle_delegation_response (st : State) (r : Dns.Msg)
    (q0 : Dns.Question) (rest : list Dns.Question) :
  Dns.Questions r = q0 :: rest ->
  Dns.Qtype q0 = Dns.TypeNS ->
  Dns.Name q0 = "t.example.com." ->
  cache_ok NewRR st ->
  fst (NewRR "t.example.com. 5 IN NS ns1.t.example.com.")
    = Some (Dns.NS_record "t.example.com." "ns1.t.example.com.") ->
  fst (NewRR "ns1.t.example.com. 5 IN A 192.168.0.11")
    = Some (Dns.A_record "ns1.t.example.com.") ->
  exists m ans ext st',
    handle NewRR r st = Go.Done ([m], st')
    /\ Dns.Answer m = [Some ans]
    /\ Dns.data ans = Dns.NS_record "t.example.com." "ns1.t.example.com."
    /\ Dns.Extra m = [Some ext]
    /\ Dns.data ext = Dns.A_record "ns1.t.example.com."
    /\ forall l : list string,
         written (handle NewRR r (with_subdomains l st)) = Go.Done [m].
Proof.
  intros Hq Hty Hname Hok Hns Hglue.
  assert (Ht : deleg_test q0 = true) by (by apply deleg_test_true).
  destruct (newRR_builds NewRR nsText _ st Hok Hns) as (ans & st1 & E1 & Hans).
  assert (Hok1 : cache_ok NewRR st1) by eauto using newRR_cache_ok.
  destruct (newRR_builds NewRR glueText _ st1 Hok1 Hglue)
    as (ext & st2 & E2 & Hext).
  eexists _, ans, ext, st2.
  split.
  { rewrite (handle_delegation_eq NewRR r st q0 rest Hq Ht).
    rewrite E1. simpl. rewrite E2. simpl. reflexivity. }
  do 4 (split; [done |]).
  intros l.
  rewrite (handle_delegation_eq NewRR r (with_subdomains l st) q0 rest Hq Ht).
  rewrite newRR_with_subdomains, E1. simpl.
  rewrite newRR_with_subdomains, E2. simpl. reflexivity.
Qed.

(** C9 (the question type is ignored outside the delegation case).  For a
    name in the allow-list and any question type that does not make the
    delegation case (AAAA, TXT, MX, NS for another allowed name, ...),
    [handle] does not drop the query: it writes one reply whose Answer is
    exactly the A record of that name with address 192.168.0.11, whatever
    the type asked for.  This where the cache is consistent with the parser
    and the parser reads [name 5 IN A 192.168.0.11] as that record. *)
Theorem handle_ignores_question_type (st : State) (r : Dns.Msg)
    (q0 : Dns.Question) (rest : list Dns.Question) :
  Dns.Questions r = q0 :: rest ->
  Dns.Name q0 ∈ subdomains st ->
  ~ (Dns.Qtype q0 = Dns.TypeNS /\ Dns.Name q0 = "t.example.com.") ->
  cache_ok NewRR st ->
  fst (NewRR (aText (Dns.Name q0))) = Some (Dns.A_record (Dns.Name q0)) ->
  exists m rec st',
    handle NewRR r st = Go.Done ([m], st')
    /\ Dns.Answer m = [Some rec]
    /\ Dns.data rec = Dns.A_record (Dns.Name q0)
    /\ Dns.Extra m = [].
Proof.
  intros Hq Hin Hnd Hok Hparse.
  destruct (handle_lookup_answer NewRR r st q0 rest _ Hq Hnd Hin Hok Hparse)
    as (rec & st' & Hh & Hrec).
  eexists _, rec, st'. split; [exact Hh | done].
Qed.

(** C10 (unchecked index).  [handle] reads [r.Question[0]] without a
    length check: it panics with an index-out-of-range error exactly when
    the query carries no question, so it is safe from that panic only for
    queries with at least one question. *)
Theorem handle_index_panic_iff_no_question (st : State) (r : Dns.Msg) :
  (exists i n, handle NewRR r st = Go.Panicked (Go.IndexOutOfRange i n))
  <-> Dns.Questions r = [].
Proof.
  split.
  - intros (i & n & H).
    destruct (Dns.Questions r) as [|q0 rest] eqn:Hq; [done | exfalso].
    destruct (deleg_test q0) eqn:Ht.
    + rewrite (handle_delegation_eq NewRR r st q0 rest Hq Ht) in H.
      destruct (newRR NewRR nsText st) as [[a st1]|p1] eqn:E1; simpl in H.
      * destruct (newRR NewRR glueText st1) as [[e st2]|p2] eqn:E2;
          simpl in H; [discriminate |].
        injection H as ->. by apply newRR_no_index_panic in E2.
      * injection H as ->. by apply newRR_no_index_panic in E1.
    + destruct (contains st (Dns.Name q0)) eqn:Hc.
      * rewrite (handle_lookup_eq NewRR r st q0 rest Hq Ht Hc) in H.
        destruct (newRR NewRR (aText (Dns.Name q0)) st) as [[a st1]|p1] eqn:E1;
          simpl in H; [discriminate |].
        injection H as ->. by apply newRR_no_index_panic in E1.
      * rewrite (handle_drop_eq NewRR r st q0 rest Hq Ht Hc) in H. discriminate.
  - intros Hq. exists 0, 0. by apply handle_no_question.
Qed.

(** C3 (exact match only).  Membership is textual equality with a stored
    entry, nothing else: [contains] is true exactly for the names that
    occur in the allow-list.  So in every state the program reaches, a
    queried name that contains an allowed name, is contained in one, or
    differs from one in letter case only, and is not itself a stored entry,
    is not contained, and the query is dropped. *)
Theorem contains_exact_match_only (st : State) :
  reachable NewRR st ->
  (forall name, contains st name = true <-> name ∈ subdomains st)
  /\
  (forall (r : Dns.Msg) (q0 : Dns.Question) (rest : list Dns.Question)
          (allowed : string),
     Dns.Questions r = q0 :: rest ->
     allowed ∈ subdomains st ->
     variant_of (Dns.Name q0) allowed ->
     Dns.Name q0 ∉ subdomains st ->
     contains st (Dns.Name q0) = false
     /\ handle NewRR r st = Go.Done ([], st)).
Proof.
  intros Hreach. split.
  - intros name. apply slices_Contains_elem.
  - intros r q0 rest allowed Hq _ _ Hnot.
    assert (Hc : contains st (Dns.Name q0) = false)
      by (by apply slices_Contains_not_elem).
    split; [exact Hc |].
    apply (handle_drop_eq NewRR r st q0 rest Hq); [| exact Hc].
    apply deleg_test_false. intros [_ Hname].
    apply Hnot. rewrite Hname.
    destruct (reachable_inv NewRR st Hreach) as [-> _].
    unfold parentZone, defaultSubdomains. left.
Qed.

(** C4 (reset restores the defaults).  Whatever the allow-list was,
    after [resetSubdomains] it is the built-in default list: membership is
    true for each of the four default names and false for every other
    name.  [resetSubdomains] is a total function: it has no failure
    outcome. *)
Theorem resetSubdomains_restores_defaults (st : State) (l : list string) :
  subdomains (resetSubdomains (with_subdomains l st)) = defaultSubdomains
  /\ contains (resetSubdomains (with_subdomains l st)) "t.example.com." = true
  /\ contains (resetSubdomains (with_subdomains l st)) "ns1.t.example.com." = true
  /\ contains (resetSubdomains (with_subdomains l st)) "www.t.example.com." = true
  /\ contains (resetSubdomains (with_subdomains l st)) "test001.t.example.com." = true
  /\ (forall name,
        name ∉ defaultSubdomains ->
        contains (resetSubdomains (with_subdomains l st)) name = false)
  /\ rrCache (resetSubdomains (with_subdomains l st)) = rrCache st.
Proof.
  repeat split.
  intros name Hn. by apply slices_Contains_not_elem.
Qed.

(** The cache is idempotent on the texts the parser builds a record from.
    In a state whose cache is consistent with the parser, the first call
    of [newRR] on such a text returns a record with the parsed content,
    and every later call, after any further operations of the program,
    returns that same stored instance (same pointer, same content) and
    leaves the state as it is, parse log included: the parser is not
    called again. *)
Theorem newRR_idempotent_on_built_records
    (T : string) (d : Dns.RData) (st : State) :
  cache_ok NewRR st ->
  fst (NewRR T) = Some d ->
  exists rec st1,
    newRR NewRR T st = Go.Done (Some rec, st1)
    /\ Dns.data rec = d
    /\ forall st2, rtc (step NewRR) st1 st2 ->
         newRR NewRR T st2 = Go.Done (Some rec, st2).
Proof.
  intros Hok Hd.
  destruct (newRR_builds NewRR T d st Hok Hd) as (rec & st1 & E & Hrec).
  exists rec, st1. split; [exact E | split; [exact Hrec |]].
  intros st2 Hsteps.
  apply newRR_hit.
  apply (steps_keep NewRR st1 st2 Hsteps).
  by apply (newRR_stores NewRR T st st1).
Qed.

(** C7 (the allow-list is never empty).  The default list has four
    entries and the program starts with it; every operation either leaves
    the allow-list as it is or replaces it wholesale with the default
    list, so no operation removes a single entry; hence the allow-list is
    the default list, and not empty, in every state the program reaches,
    and a non-empty allow-list stays non-empty under one more operation. *)
Theorem subdomains_never_empty :
  List.length defaultSubdomains = 4
  /\ subdomains init = defaultSubdomains
  /\ (forall st, subdomains (resetSubdomains st) = defaultSubdomains)
  /\ (forall st st', step NewRR st st' ->
        subdomains st' = subdomains st \/ subdomains st' = defaultSubdomains)
  /\ (forall st st', step NewRR st st' ->
        subdomains st <> [] -> subdomains st' <> [])
  /\ (forall st, reachable NewRR st ->
        subdomains st = defaultSubdomains /\ subdomains st <> []).
Proof.
  split; [reflexivity |]. split; [reflexivity |]. split; [reflexivity |].
  split; [| split].
  - intros st st' H. by apply (step_inv NewRR st st' H).
  - intros st st' H Hne.
    destruct (step_inv NewRR st st' H) as ([-> | ->] & _); [done | discriminate].
  - intros st H. destruct (reachable_inv NewRR st H) as [-> _].
    split; [reflexivity | discriminate].
Qed.


(** C8 (only the first question is inspected).  Two queries with the same
    first question (or both with none), handled in the same state, get the
    same outcome: both dropped, both panicking, or both answered with the
    same Answer and Extra record lists, leaving the same state. *)
Theorem handle_first_question_only (st : State) (r1 r2 : Dns.Msg) :
  head (Dns.Questions r1) = head (Dns.Questions r2) ->
  observe (handle NewRR r1 st) = observe (handle NewRR r2 st).
Proof.
  intros Hhd.
  destruct (Dns.Questions r1) as [|q1 rest1] eqn:H1;
    destruct (Dns.Questions r2) as [|q2 rest2] eqn:H2;
    simpl in Hhd; try discriminate.
  - by rewrite !handle_no_question.
  - injection Hhd as ->.
    destruct (deleg_test q2) eqn:Ht.
    + rewrite (handle_delegation_eq NewRR r1 st q2 rest1 H1 Ht).
      rewrite (handle_delegation_eq NewRR r2 st q2 rest2 H2 Ht).
      destruct (newRR NewRR nsText st) as [[a st1]|]; simpl; [|done].
      destruct (newRR NewRR glueText st1) as [[e st2]|]; simpl; done.
    + destruct (contains st (Dns.Name q2)) eqn:Hc.
      * rewrite (handle_lookup_eq NewRR r1 st q2 rest1 H1 Ht Hc).
        rewrite (handle_lookup_eq NewRR r2 st q2 rest2 H2 Ht Hc).
        destruct (newRR NewRR (aText (Dns.Name q2)) st) as [[a st1]|];
          simpl; done.
      * rewrite (handle_drop_eq NewRR r1 st q2 rest1 H1 Ht Hc).
        by rewrite (handle_drop_eq NewRR r2 st q2 rest2 H2 Ht Hc).
Qed.

End Claims.

(** * Concrete runs *)

(** The parser reads the texts [main.go] builds as the records they spell. *)
Lemma ZoneLine_reads_templates :
  fst (ZoneLine.NewRR nsText)
    = Some (Dns.NS_record "t.example.com." "ns1.t.example.com.")
  /\ Forall (fun name =>
       fst (ZoneLine.NewRR (aText name)) = Some (Dns.A_record name))
       defaultSubdomains.
Proof. split; [reflexivity |]. repeat constructor. Qed.

Lemma badText_malformed :
  malformed ZoneLine.NewRR badText /\ fst (ZoneLine.NewRR badText) = None.
Proof. split; [eexists |]; reflexivity. Qed.

Lemma handle_allow_list_gating_witness :
  handle ZoneLine.NewRR (query "evil.example.com." Dns.TypeA) init
    = Go.Done ([], init)
  /\ exists m rec st',
       handle ZoneLine.NewRR (query "www.t.example.com." Dns.TypeA) init
         = Go.Done ([m], st')
       /\ Dns.Answer m = [Some rec]
       /\ Dns.data rec = Dns.A_record "www.t.example.com."
       /\ Dns.Extra m = []
       /\ Dns.Response m = true
       /\ Dns.Questions m
            = [Dns.mkQuestion "www.t.example.com." Dns.TypeA Dns.ClassINET].
Proof.
  split.
  - apply (proj1 (handle_allow_list_gating ZoneLine.NewRR init
                    (query "evil.example.com." Dns.TypeA) _ _ eq_refl)).
    + apply slices_Contains_not_elem. reflexivity.
    + intros [H _]. discriminate H.
  - apply (proj2 (handle_allow_list_gating ZoneLine.NewRR init
                    (query "www.t.example.com." Dns.TypeA) _ _ eq_refl)).
    + apply slices_Contains_elem. reflexivity.
    + reflexivity.
    + apply cache_ok_init.
    + reflexivity.
Defined.

Lemma handle_delegation_response_witness :
  exists m ans ext st',
    handle ZoneLine.NewRR (query "t.example.com." Dns.TypeNS) init
      = Go.Done ([m], st')
    /\ Dns.Answer m = [Some ans]
    /\ Dns.data ans = Dns.NS_record "t.example.com." "ns1.t.example.com."
    /\ Dns.Extra m = [Some ext]
    /\ Dns.data ext = Dns.A_record "ns1.t.example.com."
    /\ forall l : list string,
         written (handle ZoneLine.NewRR (query "t.example.com." Dns.TypeNS)
                    (with_subdomains l init)) = Go.Done [m].
Proof.
  apply (handle_delegation_response ZoneLine.NewRR init
           (query "t.example.com." Dns.TypeNS) _ _ eq_refl);
    [reflexivity | reflexivity | apply cache_ok_init | reflexivity | reflexivity].
Defined.

Lemma handle_ignores_question_type_witness :
  exists m rec st',
    handle ZoneLine.NewRR (query "ns1.t.example.com." Dns.TypeNS) init
      = Go.Done ([m], st')
    /\ Dns.Answer m = [Some rec]
    /\ Dns.data rec = Dns.A_record "ns1.t.example.com."
    /\ Dns.Extra m = [].
Proof.
  apply (handle_ignores_question_type ZoneLine.NewRR init
           (query "ns1.t.example.com." Dns.TypeNS) _ _ eq_refl).
  - apply slices_Contains_elem. reflexivity.
  - intros [_ H]. discriminate H.
  - apply cache_ok_init.
  - reflexivity.
Defined.

Lemma handle_index_panic_iff_no_question_witness :
  exists i n,
    handle ZoneLine.NewRR (Dns.mkMsg 1 false 0 false false 0 [] [] []) init
      = Go.Panicked (Go.IndexOutOfRange i n).
Proof.
  apply (proj2 (handle_index_panic_iff_no_question ZoneLine.NewRR init
                  (Dns.mkMsg 1 false 0 false false 0 [] [] []))).
  reflexivity.
Defined.

Lemma contains_exact_match_only_witness :
  (contains init "a.www.t.example.com." = false
   /\ handle ZoneLine.NewRR (query "a.www.t.example.com." Dns.TypeA) init
        = Go.Done ([], init))
  /\ (contains init "example.com." = false
      /\ handle ZoneLine.NewRR (query "example.com." Dns.TypeA) init
           = Go.Done ([], init))
  /\ (contains init "WWW.T.EXAMPLE.COM." = false
      /\ handle ZoneLine.NewRR (query "WWW.T.EXAMPLE.COM." Dns.TypeA) init
           = Go.Done ([], init)).
Proof.
  pose proof (proj2 (contains_exact_match_only ZoneLine.NewRR init
                       (rtc_refl _ _))) as H.
  split; [| split].
  - apply (H (query "a.www.t.example.com." Dns.TypeA) _ _
             "www.t.example.com." eq_refl).
    + apply slices_Contains_elem. reflexivity.
    + split; [discriminate |]. left. exists "a.", "". reflexivity.
    + apply slices_Contains_not_elem. reflexivity.
  - apply (H (query "example.com." Dns.TypeA) _ _
             "www.t.example.com." eq_refl).
    + apply slices_Contains_elem. reflexivity.
    + split; [discriminate |]. right. left. exists "www.t.", "". reflexivity.
    + apply slices_Contains_not_elem. reflexivity.
  - apply (H (query "WWW.T.EXAMPLE.COM." Dns.TypeA) _ _
             "www.t.example.com." eq_refl).
    + apply slices_Contains_elem. reflexivity.
    + split; [discriminate |]. right. right. reflexivity.
    + apply slices_Contains_not_elem. reflexivity.
Defined.

Lemma resetSubdomains_restores_defaults_witness :
  contains (with_subdomains ["only.example.com."] init) "only.example.com." = true
  /\ contains (resetSubdomains (with_subdomains ["only.example.com."] init))
       "only.example.com." = false
  /\ contains (resetSubdomains (with_subdomains ["only.example.com."] init))
       "www.t.example.com." = true.
Proof.
  pose proof (resetSubdomains_restores_defaults init ["only.example.com."])
    as (_ & _ & _ & Hwww & _ & Hother & _).
  split; [reflexivity | split; [| exact Hwww]].
  apply Hother. apply slices_Contains_not_elem. reflexivity.
Defined.

Lemma newRR_idempotent_on_built_records_witness :
  exists rec st1,
    newRR ZoneLine.NewRR glueText init = Go.Done (Some rec, st1)
    /\ Dns.data rec = Dns.A_record "ns1.t.example.com."
    /\ forall st2, rtc (step ZoneLine.NewRR) st1 st2 ->
         newRR ZoneLine.NewRR glueText st2 = Go.Done (Some rec, st2).
Proof.
  apply (newRR_idempotent_on_built_records ZoneLine.NewRR glueText
           (Dns.A_record "ns1.t.example.com.") init).
  - apply cache_ok_init.
  - reflexivity.
Defined.

Lemma subdomains_never_empty_witness :
  subdomains (resetSubdomains init) = defaultSubdomains
  /\ subdomains (resetSubdomains init) <> [].
Proof.
  apply (proj2 (proj2 (proj2 (proj2 (proj2
           (subdomains_never_empty ZoneLine.NewRR)))))).
  apply rtc_once. apply step_reset.
Defined.

Lemma handle_first_question_only_witness :
  observe (handle ZoneLine.NewRR (query "www.t.example.com." Dns.TypeA) init)
  = observe (handle ZoneLine.NewRR
               (query_more "www.t.example.com." Dns.TypeA
                  [Dns.mkQuestion "evil.example.com." Dns.TypeNS Dns.ClassINET;
                   Dns.mkQuestion "t.example.com." Dns.TypeNS Dns.ClassINET])
               init).
Proof.
  apply (handle_first_question_only ZoneLine.NewRR init).
  reflexivity.
Defined.

(** C5 (idempotent cache, for every record text).  The code does not have
    the property at the rejected text [t.example.com. 5 IN A not-an-address]:
    two calls of [newRR] in sequence do not both return.  The first stores a
    nil record; the second finds it and panics in the type assertion. *)
Theorem newRR_twice_fails_on_bad_text :
  ~ twice_same_content ZoneLine.NewRR badText init.
Proof.
  intros (r1 & st1 & r2 & st2 & H1 & H2 & _).
  destruct (newRR_nil_then_panics ZoneLine.NewRR badText init)
    as (st1' & E1 & _ & _ & E2); [apply lookup_empty | reflexivity |].
  rewrite E1 in H1. injection H1 as <- <-.
  rewrite E2 in H2. discriminate H2.
Qed.

(** C6 (a rejected text, asked for twice).  For the text
    [t.example.com. 5 IN A not-an-address], which the parser rejects with an
    error: the first call of [newRR] raises nothing, returns the nil record
    and stores it under the text; the second call with the same text does
    not return the cached nil record, it panics in the type assertion on the
    nil entry. *)
Theorem newRR_bad_text_second_call_panics :
  malformed ZoneLine.NewRR badText
  /\ exists st1,
       newRR ZoneLine.NewRR badText init = Go.Done (None, st1)
       /\ rrCache st1 !! badText = Some None
       /\ parsed st1 = [badText]
       /\ newRR ZoneLine.NewRR badText st1
            = Go.Panicked Go.NilInterfaceConversion.
Proof.
  split; [apply badText_malformed |].
  apply (newRR_nil_then_panics ZoneLine.NewRR badText init).
  - apply lookup_empty.
  - reflexivity.
Qed.


(** * Further properties of the cache and the handler *)

Section Further.

Variable NewRR : string -> option Dns.RData * option string.

(** What a handled query did, read off the three branches of [handle]. *)
Lemma handle_cases (r : Dns.Msg) (st st' : State) (out : list Dns.Msg) :
  handle NewRR r st = Go.Done (out, st') ->
  exists q0 rest, Dns.Questions r = q0 :: rest /\
    ((deleg_test q0 = true /\
      exists a st1 e,
        newRR NewRR nsText st = Go.Done (a, st1)
        /\ newRR NewRR glueText st1 = Go.Done (e, st')
        /\ out = [Dns.set_Extra
                    (Dns.set_Answer (Dns.SetReply Dns.new_Msg r) [a]) [e]])
     \/ (deleg_test q0 = false /\ contains st (Dns.Name q0) = true /\
         exists a,
           newRR NewRR (aText (Dns.Name q0)) st = Go.Done (a, st')
           /\ out = [Dns.set_Answer (Dns.SetReply Dns.new_Msg r) [a]])
     \/ (deleg_test q0 = false /\ contains st (Dns.Name q0) = false
         /\ out = [] /\ st' = st)).
Proof.
  destruct (Dns.Questions r) as [|q0 rest] eqn:Hq.
  { rewrite (handle_no_question NewRR r st Hq). discriminate. }
  intros H. exists q0, rest. split; [reflexivity |].
  destruct (deleg_test q0) eqn:Ht.
  - left. split; [reflexivity |].
    rewrite (handle_delegation_eq NewRR r st q0 rest Hq Ht) in H.
    destruct (newRR NewRR nsText st) as [[a st1]|] eqn:E1;
      simpl in H; [| discriminate].
    destruct (newRR NewRR glueText st1) as [[e st2]|] eqn:E2;
      simpl in H; [| discriminate].
    injection H as <- <-. by exists a, st1, e.
  - right. destruct (contains st (Dns.Name q0)) eqn:Hc.
    + left. do 2 (split; [reflexivity |]).
      rewrite (handle_lookup_eq NewRR r st q0 rest Hq Ht Hc) in H.
      destruct (newRR NewRR (aText (Dns.Name q0)) st) as [[a st1]|] eqn:E1;
        simpl in H; [| discriminate].
      injection H as <- <-. by exists a.
    + right. do 2 (split; [reflexivity |]).
      rewrite (handle_drop_eq NewRR r st q0 rest Hq Ht Hc) in H.
      by injection H as <- <-.
Qed.






(** What one cache call can add: its own key and its own text. *)
Lemma newRR_adds_own_text (s : string) (st st' : State) (r : Dns.RR) :
  newRR NewRR s st = Go.Done (r, st') ->
  (forall k, is_Some (rrCache st' !! k) -> k = s \/ is_Some (rrCache st !! k))
  /\ (parsed st' = parsed st \/ parsed st' = s :: parsed st).
Proof.
  destruct (rrCache st !! s) as [[rec|]|] eqn:E.
  - rewrite (newRR_hit NewRR s st rec E). intros [= <- <-]. split; auto.
  - rewrite (newRR_hit_nil NewRR s st E). discriminate.
  - rewrite (newRR_miss NewRR s st E). intros [= <- <-]. simpl. split; [| auto].
    intros k. rewrite lookup_insert. case_decide; auto.
Qed.

Lemma allowed_text_served (name : string) (l : list string) :
  Go.slices_Contains l name = true -> aText name ∈ served_texts l.
Proof.
  intros H. apply slices_Contains_elem in H.
  unfold served_texts. do 2 apply list_elem_of_further.
  by apply list_elem_of_fmap_2.
Qed.

Local Ltac split4 :=
  split; [reflexivity |]; split; [simpl; lia |]; split.

(** The parser only ever sees texts the server builds itself: a handled
    query hands it at most two texts, each one a delegation text or the A
    text of a name in the allow-list, and none when the query is dropped. *)
Theorem handle_parses_served_texts_only
    (q : Dns.Msg) (st st' : State) (out : list Dns.Msg) :
  handle NewRR q st = Go.Done (out, st') ->
  exists new : list string,
    parsed st' = (new ++ parsed st)%list
    /\ List.length new <= 2
    /\ (forall t, t ∈ new -> t ∈ served_texts (subdomains st))
    /\ (out = [] -> new = []).
Proof.
  intros H.
  destruct (handle_cases q st st' out H) as (q0 & rest & _ & Hcase).
  destruct Hcase as [(_ & a & st1 & e & E1 & E2 & ->)
                    | [(_ & Hc & a & E1 & ->) | (_ & _ & -> & ->)]].
  - destruct (newRR_adds_own_text _ _ _ _ E1) as [_ [P1 | P1]];
      destruct (newRR_adds_own_text _ _ _ _ E2) as [_ [P2 | P2]];
      rewrite P2, P1.
    + exists []. split4; [intros t Ht; inversion Ht | done].
    + exists [glueText]. split4; [| done].
      intros t Ht. apply list_elem_of_singleton in Ht as ->.
      unfold served_texts. apply list_elem_of_further, list_elem_of_here.
    + exists [nsText]. split4; [| done].
      intros t Ht. apply list_elem_of_singleton in Ht as ->.
      unfold served_texts. apply list_elem_of_here.
    + exists [glueText; nsText]. split4; [| done].
      intros t Ht. unfold served_texts.
      apply elem_of_cons in Ht as [-> | Ht];
        [apply list_elem_of_further, list_elem_of_here |].
      apply list_elem_of_singleton in Ht as ->. apply list_elem_of_here.
  - destruct (newRR_adds_own_text _ _ _ _ E1) as [_ [P1 | P1]]; rewrite P1.
    + exists []. split4; [intros t Ht; inversion Ht | done].
    + exists [aText (Dns.Name q0)]. split4; [| done].
      intros t Ht. apply list_elem_of_singleton in Ht as ->.
      by apply allowed_text_served.
  - exists []. split4; [intros t Ht; inversion Ht | done].
Qed.

Lemma serve_step_keys (st st' : State) :
  serve_step NewRR st st' ->
  subdomains st = defaultSubdomains ->
  (forall k, is_Some (rrCache st !! k) -> k ∈ served_texts defaultSubdomains) ->
  subdomains st' = defaultSubdomains
  /\ (forall k, is_Some (rrCache st' !! k) ->
        k ∈ served_texts defaultSubdomains).
Proof.
  intros Hstep Hd Hkeys.
  destruct Hstep as [st | st q out st' H]; [done |].
  split.
  { destruct (handle_inv NewRR q st st' out H) as (-> & _). exact Hd. }
  destruct (handle_cases q st st' out H) as (q0 & rest & _ & Hcase).
  destruct Hcase as [(_ & a & st1 & e & E1 & E2 & _)
                    | [(_ & Hc & a & E1 & _) | (_ & _ & _ & ->)]];
    [| | exact Hkeys].
  - intros k Hk.
    destruct (proj1 (newRR_adds_own_text _ _ _ _ E2) k Hk) as [-> | Hk1].
    { apply list_elem_of_further, list_elem_of_here. }
    destruct (proj1 (newRR_adds_own_text _ _ _ _ E1) k Hk1) as [-> | Hk0].
    { apply list_elem_of_here. }
    by apply Hkeys.
  - intros k Hk.
    destruct (proj1 (newRR_adds_own_text _ _ _ _ E1) k Hk) as [-> | Hk0].
    { rewrite <- Hd. by apply allowed_text_served. }
    by apply Hkeys.
Qed.

Lemma serving_keys (st : State) :
  serving NewRR st ->
  subdomains st = defaultSubdomains
  /\ (forall k, is_Some (rrCache st !! k) ->
        k ∈ served_texts defaultSubdomains).
Proof.
  unfold serving.
  assert (Hgen : forall a b, rtc (serve_step NewRR) a b ->
            subdomains a = defaultSubdomains
            /\ (forall k, is_Some (rrCache a !! k) ->
                  k ∈ served_texts defaultSubdomains) ->
            subdomains b = defaultSubdomains
            /\ (forall k, is_Some (rrCache b !! k) ->
                  k ∈ served_texts defaultSubdomains)).
  { induction 1 as [|a b c Hab _ IH]; [done |].
    intros [Hd Hk]. apply IH. by apply (serve_step_keys a b). }
  intros H. apply (Hgen init st H). split; [reflexivity |].
  intros k. simpl. rewrite lookup_empty. by intros [? ?].
Qed.

(** The glue text is the A text of [ns1.t.example.com.], so the texts of
    the default allow-list are five, not six. *)
Lemma served_texts_default_distinct :
  NoDup (nsText :: map aText defaultSubdomains)
  /\ forall k, k ∈ served_texts defaultSubdomains ->
       k ∈ nsText :: map aText defaultSubdomains.
Proof.
  split.
  - apply (bool_decide_unpack _). vm_compute. exact I.
  - intros k Hk. unfold served_texts in Hk.
    apply elem_of_cons in Hk as [-> | Hk]; [apply list_elem_of_here |].
    apply elem_of_cons in Hk as [-> | Hk]; [| by apply list_elem_of_further].
    apply list_elem_of_further.
    change glueText with (aText "ns1.t.example.com.").
    apply list_elem_of_fmap_2.
    unfold defaultSubdomains. apply list_elem_of_further, list_elem_of_here.
Qed.

(** The cache of a running server is bounded: whatever queries arrive, its
    keys are among the texts the server builds for the default allow-list
    (the NS text and one A text per default name, the glue text being the A
    text of [ns1.t.example.com.]), so it never holds more than five
    entries. *)
Theorem serving_cache_bounded (st : State) :
  serving NewRR st ->
  (forall k, is_Some (rrCache st !! k) -> k ∈ served_texts defaultSubdomains)
  /\ size (rrCache st) <= 5.
Proof.
  intros H. destruct (serving_keys st H) as [_ Hk].
  split; [exact Hk |].
  destruct served_texts_default_distinct as [Hnd Hin].
  rewrite <- size_dom.
  change 5 with (List.length (nsText :: map aText defaultSubdomains)).
  rewrite <- (size_list_to_set (C := gset string) _ Hnd).
  apply subseteq_size. intros k Hdom.
  apply elem_of_list_to_set, Hin, Hk. by apply elem_of_dom.
Qed.

(** The handler does not panic while the program runs: where the parser
    builds a record from each text of the default allow-list, in every state
    the program reaches a query with at least one question is handled to the
    end, and no record of the reply is nil. *)
Theorem handle_returns_when_templates_parse (st : State) (r : Dns.Msg) :
  Forall (fun t => is_Some (fst (NewRR t))) (served_texts defaultSubdomains) ->
  reachable NewRR st ->
  Dns.Questions r <> [] ->
  exists out st',
    handle NewRR r st = Go.Done (out, st') /\ Forall no_nil_record out.
Proof.
  intros Hparse Hreach Hne.
  destruct (reachable_inv NewRR st Hreach) as [Hd Hok].
  rewrite Forall_forall in Hparse.
  destruct (Dns.Questions r) as [|q0 rest] eqn:Hq; [done |].
  destruct (deleg_test q0) eqn:Ht.
  - destruct (Hparse nsText) as [d1 H1]; [apply list_elem_of_here |].
    destruct (Hparse glueText) as [d2 H2];
      [apply list_elem_of_further, list_elem_of_here |].
    destruct (newRR_builds NewRR nsText d1 st Hok H1) as (a & st1 & E1 & _).
    assert (Hok1 : cache_ok NewRR st1) by eauto using newRR_cache_ok.
    destruct (newRR_builds NewRR glueText d2 st1 Hok1 H2) as (e & st2 & E2 & _).
    rewrite (handle_delegation_eq NewRR r st q0 rest Hq Ht), E1. simpl.
    rewrite E2. simpl. eexists _, _. split; [reflexivity |].
    repeat constructor; by eexists.
  - destruct (contains st (Dns.Name q0)) eqn:Hc.
    + destruct (Hparse (aText (Dns.Name q0))) as [d1 H1].
      { rewrite <- Hd. by apply allowed_text_served. }
      destruct (newRR_builds NewRR _ d1 st Hok H1) as (a & st1 & E1 & _).
      rewrite (handle_lookup_eq NewRR r st q0 rest Hq Ht Hc), E1. simpl.
      eexists _, _. split; [reflexivity |].
      repeat constructor; by eexists.
    + rewrite (handle_drop_eq NewRR r st q0 rest Hq Ht Hc).
      eexists _, _. split; [reflexivity | constructor].
Qed.

(** What the handler writes.  A handled query is either dropped, and then
    nothing is written, the state is as before, and the question was neither
    the delegation question nor for an allowed name; or it is answered with
    exactly one message, and then the question was the delegation question
    or for an allowed name, the message is a reply to the request (same id,
    reply flag, success code, the first question echoed alone) and carries
    one Answer record and, in the delegation case only, one Extra record. *)
Theorem handle_reply_shape (r : Dns.Msg) (st st' : State) (out : list Dns.Msg) :
  handle NewRR r st = Go.Done (out, st') ->
  exists q0 rest, Dns.Questions r = q0 :: rest /\
    ((out = [] /\ st' = st
      /\ ~ delegation q0 /\ Dns.Name q0 ∉ subdomains st)
     \/ exists m,
          out = [m]
          /\ (delegation q0 \/ Dns.Name q0 ∈ subdomains st)
          /\ Dns.Id m = Dns.Id r
          /\ Dns.Response m = true
          /\ Dns.Rcode m = Dns.RcodeSuccess
          /\ Dns.Questions m = [q0]
          /\ List.length (Dns.Answer m) = 1
          /\ List.length (Dns.Extra m) = (if deleg_test q0 then 1 else 0)).
Proof.
  intros H.
  destruct (handle_cases r st st' out H) as (q0 & rest & Hq & Hcase).
  exists q0, rest. split; [exact Hq |].
  destruct Hcase as [(Ht & a & st1 & e & _ & _ & ->)
                    | [(Ht & Hc & a & _ & ->) | (Ht & Hc & -> & ->)]].
  - right. eexists. split; [reflexivity |].
    split; [left; by apply deleg_test_true |].
    rewrite Ht. simpl. rewrite Hq. done.
  - right. eexists. split; [reflexivity |].
    split; [right; by apply slices_Contains_elem |].
    rewrite Ht. simpl. rewrite Hq. done.
  - left. do 2 (split; [reflexivity |]).
    split; [by apply deleg_test_false | by apply slices_Contains_not_elem].
Qed.

(** Reset and the cache do not interfere: [resetSubdomains] done twice is
    [resetSubdomains] done once, it leaves the cache and the parse log as
    they are, and a cache call gives the same record whether the reset comes
    before it or after it. *)
Theorem resetSubdomains_commutes_with_newRR (s : string) (st : State) :
  resetSubdomains (resetSubdomains st) = resetSubdomains st
  /\ rrCache (resetSubdomains st) = rrCache st
  /\ parsed (resetSubdomains st) = parsed st
  /\ newRR NewRR s (resetSubdomains st) =
       Go.bind (newRR NewRR s st) (fun p =>
         Go.Done (fst p, resetSubdomains (snd p))).
Proof.
  repeat split.
  apply (newRR_with_subdomains NewRR defaultSubdomains s st).
Qed.

(** Asking again changes nothing: when a query was handled and no record
    of the reply is nil, the same query handled next gets the same reply,
    record instances included, and leaves the state, cache and parse log,
    as it is. *)
Theorem handle_again_same_reply
    (r : Dns.Msg) (st st' : State) (out : list Dns.Msg) :
  handle NewRR r st = Go.Done (out, st') ->
  Forall no_nil_record out ->
  handle NewRR r st' = Go.Done (out, st').
Proof.
  intros H Hnn.
  destruct (handle_inv NewRR r st st' out H) as (Hsub & _ & _).
  destruct (handle_cases r st st' out H) as (q0 & rest & Hq & Hcase).
  destruct Hcase as [(Ht & a & st1 & e & E1 & E2 & ->)
                    | [(Ht & Hc & a & E1 & ->) | (Ht & Hc & -> & ->)]].
  - apply Forall_cons_1 in Hnn as [[Ha He] _]. simpl in Ha, He.
    apply Forall_cons_1 in Ha as [[ra ->] _].
    apply Forall_cons_1 in He as [[re ->] _].
    rewrite (handle_delegation_eq NewRR r st' q0 rest Hq Ht).
    assert (K1 : rrCache st' !! nsText = Some (Some ra)).
    { apply (newRR_keeps NewRR glueText st1 st' _ E2).
      by apply (newRR_stores NewRR nsText st st1). }
    assert (K2 : rrCache st' !! glueText = Some (Some re))
      by (by apply (newRR_stores NewRR glueText st1 st')).
    rewrite (newRR_hit NewRR nsText st' ra K1). simpl.
    rewrite (newRR_hit NewRR glueText st' re K2). reflexivity.
  - apply Forall_cons_1 in Hnn as [[Ha _] _]. simpl in Ha.
    apply Forall_cons_1 in Ha as [[ra ->] _].
    assert (Hc' : contains st' (Dns.Name q0) = true)
      by (unfold contains; rewrite Hsub; exact Hc).
    rewrite (handle_lookup_eq NewRR r st' q0 rest Hq Ht Hc').
    assert (K1 : rrCache st' !! aText (Dns.Name q0) = Some (Some ra))
      by (by apply (newRR_stores NewRR _ st st')).
    rewrite (newRR_hit NewRR _ st' ra K1). reflexivity.
  - exact H.
Qed.

(** A cache call panics exactly on a key stored with a nil record. *)
Lemma newRR_panics_iff (s : string) (st : State) :
  (exists p, newRR NewRR s st = Go.Panicked p) <-> rrCache st !! s = Some None.
Proof.
  split.
  - intros [p H]. unfold newRR in H.
    destruct (rrCache st !! s) as [[rec|]|]; try discriminate. reflexivity.
  - intros H. eexists. by apply newRR_hit_nil.
Qed.

(** A cache call leaves every other key as it was. *)
Lemma newRR_other_keys (s k : string) (st st' : State) (r : Dns.RR) :
  newRR NewRR s st = Go.Done (r, st') -> k <> s ->
  rrCache st' !! k = rrCache st !! k.
Proof.
  destruct (rrCache st !! s) as [[rec|]|] eqn:E.
  - rewrite (newRR_hit NewRR s st rec E). by intros [= <- <-].
  - rewrite (newRR_hit_nil NewRR s st E). discriminate.
  - rewrite (newRR_miss NewRR s st E). intros [= <- <-] Hk. simpl.
    by rewrite lookup_insert_ne.
Qed.

(** When the handler panics.  [handle] panics exactly when the query has no
    question, or when a text it needs is stored in the cache with a nil
    record: the NS or the glue text for the delegation question, the A text
    of the name for a question on an allowed name.  A query that is dropped
    never panics. *)
Theorem handle_panics_iff (r : Dns.Msg) (st : State) :
  (exists p, handle NewRR r st = Go.Panicked p)
  <->
  (Dns.Questions r = []
   \/ exists q0 rest, Dns.Questions r = q0 :: rest /\
        ((deleg_test q0 = true
          /\ (rrCache st !! nsText = Some None
              \/ rrCache st !! glueText = Some None))
         \/ (deleg_test q0 = false
             /\ contains st (Dns.Name q0) = true
             /\ rrCache st !! aText (Dns.Name q0) = Some None))).
Proof.
  destruct (Dns.Questions r) as [|q0 rest] eqn:Hq.
  { rewrite (handle_no_question NewRR r st Hq). split; [by left | by eexists]. }
  assert (Hne : glueText <> nsText) by discriminate.
  split.
  - intros [p H]. right. exists q0, rest. split; [reflexivity |].
    destruct (deleg_test q0) eqn:Ht.
    + left. split; [reflexivity |].
      rewrite (handle_delegation_eq NewRR r st q0 rest Hq Ht) in H.
      destruct (newRR NewRR nsText st) as [[a st1]|p1] eqn:E1; simpl in H.
      * right. rewrite <- (newRR_other_keys nsText glueText st st1 a E1 Hne).
        apply newRR_panics_iff.
        destruct (newRR NewRR glueText st1) as [[e st2]|p2];
          simpl in H; [discriminate | by eexists].
      * left. apply newRR_panics_iff. by eexists.
    + right. split; [reflexivity |].
      destruct (contains st (Dns.Name q0)) eqn:Hc.
      * split; [reflexivity |].
        rewrite (handle_lookup_eq NewRR r st q0 rest Hq Ht Hc) in H.
        apply newRR_panics_iff.
        destruct (newRR NewRR (aText (Dns.Name q0)) st) as [[a st1]|p1];
          simpl in H; [discriminate | by eexists].
      * rewrite (handle_drop_eq NewRR r st q0 rest Hq Ht Hc) in H.
        discriminate.
  - intros [Hnil | (q0' & rest' & [= <- <-] & Hcase)]; [discriminate |].
    destruct Hcase as [(Ht & Hk) | (Ht & Hc & Hk)].
    + rewrite (handle_delegation_eq NewRR r st q0 rest Hq Ht).
      destruct (newRR NewRR nsText st) as [[a st1]|p1] eqn:E1; simpl;
        [| by eexists].
      destruct Hk as [Hk | Hk].
      * apply newRR_hit_nil with (NewRR := NewRR) in Hk. congruence.
      * rewrite <- (newRR_other_keys nsText glueText st st1 a E1 Hne) in Hk.
        rewrite (newRR_hit_nil NewRR glueText st1 Hk). simpl. by eexists.
    + rewrite (handle_lookup_eq NewRR r st q0 rest Hq Ht Hc).
      rewrite (newRR_hit_nil NewRR _ st Hk). simpl. by eexists.
Qed.

End Further.

(** ** Concrete runs of the further properties *)



Lemma handle_parses_served_texts_only_witness :
  exists out st1,
    handle ZoneLine.NewRR (query "t.example.com." Dns.TypeNS) init
      = Go.Done (out, st1)
    /\ exists new : list string,
         parsed st1 = (new ++ parsed init)%list
         /\ List.length new <= 2
         /\ (forall t, t ∈ new -> t ∈ served_texts (subdomains init))
         /\ (out = [] -> new = []).
Proof.
  eexists _, _. split; [reflexivity |].
  apply (handle_parses_served_texts_only ZoneLine.NewRR
           (query "t.example.com." Dns.TypeNS) init).
  reflexivity.
Defined.

Lemma serving_cache_bounded_witness :
  exists out st1,
    handle ZoneLine.NewRR (query "www.t.example.com." Dns.TypeA) init
      = Go.Done (out, st1)
    /\ (forall k, is_Some (rrCache st1 !! k) ->
          k ∈ served_texts defaultSubdomains)
    /\ size (rrCache st1) <= 5.
Proof.
  eexists _, _. split; [reflexivity |].
  apply (serving_cache_bounded ZoneLine.NewRR).
  apply rtc_once.
  eapply (serve_handle ZoneLine.NewRR init
            (query "www.t.example.com." Dns.TypeA)).
  reflexivity.
Defined.

Lemma handle_returns_when_templates_parse_witness :
  exists out st',
    handle ZoneLine.NewRR
      (query_more "test001.t.example.com." Dns.TypeA
         [Dns.mkQuestion "evil.example.com." Dns.TypeA Dns.ClassINET])
      (resetSubdomains init) = Go.Done (out, st')
    /\ Forall no_nil_record out.
Proof.
  apply (handle_returns_when_templates_parse ZoneLine.NewRR).
  - repeat constructor; eexists; reflexivity.
  - apply rtc_once. apply step_reset.
  - discriminate.
Defined.

Lemma handle_reply_shape_witness :
  exists out st1,
    handle ZoneLine.NewRR (query "t.example.com." Dns.TypeNS) init
      = Go.Done (out, st1)
    /\ exists q0 rest,
         Dns.Questions (query "t.example.com." Dns.TypeNS) = q0 :: rest /\
         ((out = [] /\ st1 = init
           /\ ~ delegation q0 /\ Dns.Name q0 ∉ subdomains init)
          \/ exists m,
               out = [m]
               /\ (delegation q0 \/ Dns.Name q0 ∈ subdomains init)
               /\ Dns.Id m = Dns.Id (query "t.example.com." Dns.TypeNS)
               /\ Dns.Response m = true
               /\ Dns.Rcode m = Dns.RcodeSuccess
               /\ Dns.Questions m = [q0]
               /\ List.length (Dns.Answer m) = 1
               /\ List.length (Dns.Extra m) = (if deleg_test q0 then 1 else 0)).
Proof.
  eexists _, _. split; [reflexivity |].
  apply (handle_reply_shape ZoneLine.NewRR
           (query "t.example.com." Dns.TypeNS) init).
  reflexivity.
Defined.

Lemma handle_again_same_reply_witness :
  exists out st1,
    handle ZoneLine.NewRR (query "t.example.com." Dns.TypeNS) init
      = Go.Done (out, st1)
    /\ handle ZoneLine.NewRR (query "t.example.com." Dns.TypeNS) st1
      = Go.Done (out, st1).
Proof.
  eexists _, _. split; [reflexivity |].
  apply (handle_again_same_reply ZoneLine.NewRR
           (query "t.example.com." Dns.TypeNS) init).
  - reflexivity.
  - repeat constructor; eexists; reflexivity.
Defined.

Lemma handle_panics_iff_witness :
  exists st1,
    newRR ZoneLine.NewRR (aText "bad name.") init = Go.Done (None, st1)
    /\ exists p,
         handle ZoneLine.NewRR (query "bad name." Dns.TypeA)
           (with_subdomains ["bad name."] st1) = Go.Panicked p.
Proof.
  eexists. split; [reflexivity |].
  apply handle_panics_iff.
  right. eexists _, _. split; [reflexivity |].
  right. split; [reflexivity |]. split; reflexivity.
Defined.
